(** * BDF-Mobile: tank gauge poller and stock dashboard

    A shallow embedding of the two client scripts of the repository,
    [tanker_weight_log.js] and [stock_dashboard.js], and the proofs of the
    properties their specification states about them.

    JavaScript numbers are IEEE 754 binary64 values: they are embedded as
    Rocq's primitive [float], whose operations are specified against
    [SpecFloat] by the axioms of [FloatAxioms].  Counters that only ever
    hold array lengths and [++] results are embedded as [nat] (an array has
    fewer than 2^32 elements, far below the 2^53 up to which binary64 counts
    exactly).  Asynchronous calls are embedded as the request issued
    together with the callback registered for its answer, and a callback as
    a function from the page before to the page after. *)

From Stdlib Require Import ZArith List String Ascii Bool Lia Floats.
From Stdlib Require DecimalString.
From Stdlib Require Permutation.
Import ListNotations.

Local Open Scope string_scope.
Local Open Scope float_scope.

(* ================================================================== *)
(** * JavaScript numbers *)
(* ================================================================== *)

Module JsNumber.

(** [ToBoolean] of a number: [+0], [-0] and [NaN] are falsy. *)
Definition truthy (x : float) : bool :=
  negb (is_zero x || is_nan x).

(** The number that holds the integer counter [n]. *)
Definition of_nat (n : nat) : float :=
  SF2Prim (binary_normalize prec emax (Z.of_nat n) 0 false).

(** An integer in decimal notation. *)
Definition decimal (n : N) : string :=
  DecimalString.NilZero.string_of_uint (N.to_uint n).

(** [n] tenths in decimal notation: the digits of [n] with a point before
    the last one, after a minus sign for a negative number. *)
Definition one_decimal (negative : bool) (n : N) : string :=
  (if negative then "-" else "") ++
  decimal (n / 10) ++ "." ++ decimal (n mod 10).

(** The integer nearest to [10 * m * 2^e], the larger one of two that are
    equally near. *)
Definition tenths (m : positive) (e : Z) : N :=
  match e with
  | Zneg p => Z.to_N ((20 * Zpos m + 2 ^ Zpos p) / 2 ^ (Zpos p + 1))
  | _ => Z.to_N (10 * Zpos m * 2 ^ e)
  end.

(** [Math.round(x)]: the integer nearest to [x], ties towards +infinity;
    a result of zero keeps the sign of [x]. *)
Definition Math_round (x : float) : float :=
  match Prim2SF x with
  | S754_finite s m (Zneg p) =>
      let v := if s then Zneg m else Zpos m in
      let n := ((2 * v + 2 ^ Zpos p) / 2 ^ (Zpos p + 1))%Z in
      if (n =? 0)%Z then (if s then neg_zero else zero)
      else SF2Prim (binary_normalize prec emax n 0 false)
  | _ => x
  end.

Section ToString.

(** [Number::toString(x, 10)] of the runtime: the shortest decimal text
    that reads back as [x].  It is used as given. *)
Variable Number_toString : float -> string.

(** [x.toFixed(1)] (ECMA-262, Number.prototype.toFixed with one fraction
    digit): a number that is not finite, or whose magnitude reaches 10^21,
    is printed by [Number::toString]; any other one is printed as the
    integer [n] nearest to ten times its magnitude, with a point before the
    last digit and a minus sign when [x < 0]. *)
Definition toFixed1 (x : float) : string :=
  if negb (is_finite x) || (1e21 <=? abs x) then Number_toString x
  else
    match Prim2SF x with
    | S754_finite s m e => one_decimal s (tenths m e)
    | _ => one_decimal false 0
    end.

End ToString.

End JsNumber.

(* ================================================================== *)
(** * tanker_weight_log.js *)
(* ================================================================== *)

Module TankerWeightLog.

(** A row of the [Tanker Weight Log] list query, which asks for the one
    field [weight]. *)
Record WeightLog := { weight : float }.

(** The arguments of [frappe.db.get_list]. *)
Record GetList := {
  doctype : string;
  filters_device : string;
  fields : list string;
  order_by : string;
  limit : nat
}.

(** The four DOM properties the script writes. *)
Record Dom := {
  liquid_level_height : string;
  weight_display : string;
  device_label : string;
  liquid_level_backgroundColor : string
}.

Definition default_maxCapacity : float := 5000.

(** [fillPercent] once line 14 has run. *)
Definition fillPercent (weight maxCapacity : float) : float :=
  let fillPercent := (weight / maxCapacity) * 100 in
  if 100 <? fillPercent then 100 else fillPercent.

(** [color] of line 22. *)
Definition color (fillPercent : float) : string :=
  if fillPercent <? 10 then "#f44336" else "#2196F3".

Section Runtime.

Variable Number_toString : float -> string.

(** The [then] callback of lines 8-25, as a transformer of the DOM. *)
Definition on_records (deviceId : string) (maxCapacity : float)
    (records : list WeightLog) (dom : Dom) : Dom :=
  match records with
  | [] => dom
  | r :: _ =>
      let weight := r.(weight) in
      let fillPercent := fillPercent weight maxCapacity in
      {| liquid_level_height := Number_toString fillPercent ++ "%";
         weight_display := Number_toString weight ++ " kg";
         device_label := "Device: " ++ deviceId;
         liquid_level_backgroundColor := color fillPercent |}
  end.

(** [updateTankGraphic]: the query it issues and the callback it registers
    for the answer.  An omitted [maxCapacity] is 5000. *)
Definition updateTankGraphic (deviceId : string) (maxCapacity : option float)
  : GetList * (list WeightLog -> Dom -> Dom) :=
  let maxCapacity :=
    match maxCapacity with Some c => c | None => default_maxCapacity end in
  ({| doctype := "Tanker Weight Log";
      filters_device := deviceId;
      fields := ["weight"];
      order_by := "creation desc";
      limit := 1 |},
   on_records deviceId maxCapacity).

(** Lines 29-30: the call made at load and by every tick of the timer. *)
Definition poll : GetList * (list WeightLog -> Dom -> Dom) :=
  updateTankGraphic "MCOMWIFI051" None.

End Runtime.

End TankerWeightLog.

(* ================================================================== *)
(** * stock_dashboard.js *)
(* ================================================================== *)

Module StockDashboard.

Import JsNumber.

(** A row of the answer of [get_stock_data].  [warehouse] and
    [custom_no_of_days] may be missing or [null]: that is [None]. *)
Record StockRow := {
  item_code : string;
  item_name : string;
  warehouse : option string;
  actual_qty : float;
  reorder_level : float;
  custom_no_of_days : option float
}.

(** A value that is either a number or a string: [days_remaining] and
    [avg_days] are the number [0] or the string [toFixed] returns. *)
Inductive jsval :=
| JNum (x : float)
| JStr (s : string).

(** One card of the grid: the values the template of lines 305-337 puts in
    its holes, in the order of the source. *)
Record Card := {
  card_class : string;
  card_route : string;
  card_item_name : string;
  badge_class : string;
  badge_text : string;
  card_qty : float;
  card_reorder : float;
  card_days : jsval;
  card_warehouse : string
}.

(** What [#stock-cards-container] holds: a fixed piece of markup, or the
    cards joined by [map(...).join("")]. *)
Inductive Container :=
| Html (s : string)
| Cards (cs : list Card).

(** The page: each summary tile holds the value last given to [.text()]. *)
Record Dom := {
  total_items : nat;
  critical_items : nat;
  healthy_items : nat;
  avg_days_tile : jsval;
  stock_cards_container : Container
}.

(** The markup of lines 202-225: every tile reads 0, no card. *)
Definition initial_dom : Dom :=
  {| total_items := 0;
     critical_items := 0;
     healthy_items := 0;
     avg_days_tile := JStr "0";
     stock_cards_container := Html "" |}.

(** The locals the [forEach] of lines 276-287 updates. *)
Record Totals := {
  critical : nat;
  healthy : nat;
  total_days : float;
  valid_day_items : nat
}.

Definition totals0 : Totals :=
  {| critical := 0; healthy := 0; total_days := 0; valid_day_items := 0 |}.

(** The body of the [forEach] callback. *)
Definition forEach_body (t : Totals) (i : StockRow) : Totals :=
  let t :=
    if i.(actual_qty) <=? i.(reorder_level) then
      {| critical := S t.(critical); healthy := t.(healthy);
         total_days := t.(total_days);
         valid_day_items := t.(valid_day_items) |}
    else
      {| critical := t.(critical); healthy := S t.(healthy);
         total_days := t.(total_days);
         valid_day_items := t.(valid_day_items) |} in
  match i.(custom_no_of_days) with
  | Some d =>
      if truthy d && (0 <? d) then
        {| critical := t.(critical); healthy := t.(healthy);
           total_days := t.(total_days) + i.(actual_qty) / d;
           valid_day_items := S t.(valid_day_items) |}
      else t
  | None => t
  end.

Definition forEach (data : list StockRow) : Totals :=
  fold_left forEach_body data totals0.

Section Runtime.

Variable Number_toString : float -> string.

(** [avg_days] of line 289. *)
Definition avg_days (t : Totals) : jsval :=
  match t.(valid_day_items) with
  | O => JNum 0
  | S _ =>
      JStr (toFixed1 Number_toString
              (t.(total_days) / of_nat t.(valid_day_items)))
  end.

(** [days_remaining] of lines 298-301. *)
Definition days_remaining (i : StockRow) : jsval :=
  match i.(custom_no_of_days) with
  | Some d =>
      if truthy d && (0 <? d) then
        JStr (toFixed1 Number_toString (i.(actual_qty) / d))
      else JNum 0
  | None => JNum 0
  end.

(** The callback of [data.map], lines 296-338. *)
Definition card (i : StockRow) : Card :=
  let days_remaining := days_remaining i in
  let isCritical := i.(actual_qty) <=? i.(reorder_level) in
  {| card_class := if isCritical then "critical" else "safe";
     card_route := i.(item_code);
     card_item_name := i.(item_name);
     badge_class := if isCritical then "badge-critical" else "badge-healthy";
     badge_text := if isCritical then "Critical" else "Healthy";
     card_qty := Math_round i.(actual_qty);
     card_reorder := i.(reorder_level);
     card_days := days_remaining;
     card_warehouse :=
       match i.(warehouse) with
       | Some (String c w) => String c w
       | Some EmptyString | None => "Multiple"
       end |}.

(** [render_data]. *)
Definition render_data (data : list StockRow) (dom : Dom) : Dom :=
  match data with
  | [] =>
      {| total_items := dom.(total_items);
         critical_items := dom.(critical_items);
         healthy_items := dom.(healthy_items);
         avg_days_tile := dom.(avg_days_tile);
         stock_cards_container :=
           Html "<div class='empty-state'>No stock found.</div>" |}
  | _ :: _ =>
      let total := List.length data in
      let t := forEach data in
      let avg_days := avg_days t in
      {| total_items := total;
         critical_items := t.(critical);
         healthy_items := t.(healthy);
         avg_days_tile := avg_days;
         stock_cards_container := Cards (map card data) |}
  end.

(** The five filter controls of the page, each with the value its
    [get_value()] returns; [None] is a control without a value. *)
Record Page := {
  wh_f : option string;
  item_f : option string;
  group_f : option string;
  status_f : option string;
  sort_f : option string
}.

(** The argument of [frappe.call]: [args] lists the keys of the object
    literal in source order, [callback] takes [r.message]. *)
Record Call := {
  method : string;
  args : list (string * option string);
  callback : option (list StockRow) -> Dom -> Dom
}.

(** [refresh_data]: the page after the loading placeholder is shown,
    and the remote calls issued. *)
Definition refresh_data (page : Page) (dom : Dom) : Dom * list Call :=
  ({| total_items := dom.(total_items);
      critical_items := dom.(critical_items);
      healthy_items := dom.(healthy_items);
      avg_days_tile := dom.(avg_days_tile);
      stock_cards_container :=
        Html "<div class='empty-state'>Loading inventory data...</div>" |},
   [ {| method :=
          "dairy.dairy.page.stock_dashboard.stock_dashboard.get_stock_data";
        args := [ ("warehouse", page.(wh_f));
                  ("item_code", page.(item_f));
                  ("item_group", page.(group_f));
                  ("stock_status", page.(status_f));
                  ("sort_order", page.(sort_f)) ];
        callback := fun message =>
          render_data match message with Some m => m | None => [] end |} ]).

End Runtime.

End StockDashboard.

(* ================================================================== *)
(** * The vocabulary of the specification *)
(* ================================================================== *)

Module Vocabulary.

Import JsNumber StockDashboard.

(** ** Numbers *)

(** [0 <= x], read on the representation of [x]. *)
Definition nonneg (x : spec_float) : Prop :=
  match x with
  | S754_zero _ => True
  | S754_infinity s | S754_finite s _ _ => s = false
  | S754_nan => False
  end.

(** The value [m * 2^e] of a finite number as a fraction. *)
Definition numerator (m : positive) (e : Z) : Z := Zpos m * 2 ^ Z.max e 0.
Definition denominator (e : Z) : Z := 2 ^ Z.max (- e) 0.

(** [n / 10] is the magnitude of the finite number [x] rounded to one
    decimal place: no multiple of one tenth is nearer, and of two that are
    equally near it is the larger. *)
Definition nearest_tenth (x : float) (n : N) : Prop :=
  match Prim2SF x with
  | S754_finite _ m e =>
      ((2 * Z.of_N n - 1) * denominator e <= 20 * numerator m e
       < (2 * Z.of_N n + 1) * denominator e)%Z
  | S754_zero _ => n = 0%N
  | _ => False
  end.

(** ** Stock rows *)

(** The classification test. *)
Definition isCritical (i : StockRow) : bool :=
  i.(actual_qty) <=? i.(reorder_level).

(** A row whose days-of-supply is absent, zero or negative. *)
Definition absent_zero_or_negative (i : StockRow) : bool :=
  match i.(custom_no_of_days) with
  | None => true
  | Some d => (d =? 0) || (d <? 0)
  end.

(** The days remaining of an included row: days-of-supply present and
    greater than zero. *)
Definition daysRemaining (i : StockRow) : option float :=
  match i.(custom_no_of_days) with
  | Some d => if 0 <? d then Some (i.(actual_qty) / d) else None
  | None => None
  end.

(** The days remaining of the included rows, in the order of the rows. *)
Fixpoint includedDays (rows : list StockRow) : list float :=
  match rows with
  | [] => []
  | i :: rows =>
      match daysRemaining i with
      | Some q => q :: includedDays rows
      | None => includedDays rows
      end
  end.

(** Their sum, accumulated from left to right. *)
Definition sumDays (qs : list float) : float := fold_left add qs 0.

(** How many cards carry a given badge, or a given border class. *)
Definition badged (b : string) (cards : list Card) : nat :=
  count_occ string_dec (map badge_text cards) b.

Definition bordered (c : string) (cards : list Card) : nat :=
  count_occ string_dec (map card_class cards) c.

(** ** Sample data *)

(** The two rows of the specification's example for the average. *)
Definition row_counted : StockRow :=
  {| item_code := "ITM-0001"; item_name := "Toned milk";
     warehouse := Some "Stores";
     actual_qty := 100; reorder_level := 20;
     custom_no_of_days := Some 10 |}.

Definition row_at_threshold : StockRow :=
  {| item_code := "ITM-0002"; item_name := "Curd";
     warehouse := None;
     actual_qty := 50; reorder_level := 50;
     custom_no_of_days := Some 0 |}.

(** A runtime printer for the examples, none of which reaches it. *)
Definition unused_toString (x : float) : string := "".

(** A filter state: no warehouse, item or group chosen, status All, order
    asc. *)
Definition page_defaults : Page :=
  {| wh_f := None; item_f := None; group_f := None;
     status_f := Some "All"; sort_f := Some "asc" |}.

(** The page once the two sample rows are rendered. *)
Definition dom_two_rows : Dom :=
  render_data unused_toString [row_counted; row_at_threshold] initial_dom.

End Vocabulary.

(* ================================================================== *)
(** * More vocabulary *)
(* ================================================================== *)

Module MoreVocabulary.

(** [x <= 0], read on the representation of [x]. *)
Definition nonpos (x : spec_float) : Prop :=
  match x with
  | S754_zero _ => True
  | S754_infinity s | S754_finite s _ _ => s = true
  | S754_nan => False
  end.

(** A decimal digit. *)
Definition is_digit (c : ascii) : bool :=
  ((48 <=? nat_of_ascii c) && (nat_of_ascii c <=? 57))%nat.

End MoreVocabulary.

(* ================================================================== *)
(** * Pages over time *)
(* ================================================================== *)

Module Sessions.

Import JsNumber StockDashboard Vocabulary.

(** ** The tank gauge *)

Section Gauge.

Variable Number_toString : float -> string.

(** The gauge after the answers to successive calls of [updateTankGraphic]
    (the call at load and one per tick of the timer of line 29) have been
    handled, in the order they arrive. *)
Definition handle_answers (deviceId : string) (maxCapacity : option float)
    (answers : list (list TankerWeightLog.WeightLog))
    (dom : TankerWeightLog.Dom) : TankerWeightLog.Dom :=
  fold_left
    (fun dom records =>
       snd (TankerWeightLog.updateTankGraphic Number_toString deviceId
              maxCapacity) records dom)
    answers dom.

End Gauge.

(** The reading the last answer that has one starts with. *)
Fixpoint last_reading (answers : list (list TankerWeightLog.WeightLog))
  : option TankerWeightLog.WeightLog :=
  match answers with
  | [] => None
  | records :: answers =>
      match last_reading answers with
      | Some r => Some r
      | None =>
          match records with
          | r :: _ => Some r
          | [] => None
          end
      end
  end.

(** ** The stock dashboard *)

(** What happens to the page: [refresh_data] runs for the current filter
    state (at load, on a change of a filter, on the Refresh action), or the
    answer to the call of such a run arrives with its [r.message]. *)
Inductive Event :=
| Refresh (page : Page)
| Answer (page : Page) (message : option (list StockRow)).

Section Dashboard.

Variable Number_toString : float -> string.

Definition step (dom : Dom) (e : Event) : Dom :=
  match e with
  | Refresh page => fst (refresh_data Number_toString page dom)
  | Answer page message =>
      fold_left (fun dom c => callback c message dom)
        (snd (refresh_data Number_toString page dom)) dom
  end.

Definition run (events : list Event) (dom : Dom) : Dom :=
  fold_left step events dom.

End Dashboard.

(** The rows of an answer: [r.message || []]. *)
Definition rows_of (message : option (list StockRow)) : list StockRow :=
  match message with Some m => m | None => [] end.

(** The rows of the last answer that has rows. *)
Fixpoint last_rows (events : list Event) : option (list StockRow) :=
  match events with
  | [] => None
  | e :: events =>
      match last_rows events with
      | Some data => Some data
      | None =>
          match e with
          | Answer _ message =>
              match rows_of message with
              | [] => None
              | data => Some data
              end
          | Refresh _ => None
          end
      end
  end.

(** The tiles agree with the cards on the page, when it shows cards. *)
Definition consistent (dom : Dom) : Prop :=
  match dom.(stock_cards_container) with
  | Cards cs =>
      cs <> [] /\
      dom.(total_items) = List.length cs /\
      dom.(critical_items) = badged "Critical" cs /\
      dom.(healthy_items) = badged "Healthy" cs /\
      (dom.(critical_items) + dom.(healthy_items) = dom.(total_items))%nat
  | Html _ => True
  end.

(** Three rows with the same quantities in two orders. *)
Definition row_of_qty (q : float) : StockRow :=
  {| item_code := "ITM-0003"; item_name := "Ghee";
     warehouse := None;
     actual_qty := q; reorder_level := 0;
     custom_no_of_days := Some 1 |}.

Definition rows_descending : list StockRow :=
  [row_of_qty 1e16; row_of_qty 1; row_of_qty 1].

Definition rows_ascending : list StockRow :=
  [row_of_qty 1; row_of_qty 1; row_of_qty 1e16].

End Sessions.

(* ================================================================== *)
(** * Facts about binary64 comparison and rounding *)
(* ================================================================== *)

Module JsNumberFacts.

Import JsNumber Vocabulary.

(** ** Comparison *)

(** Swapping the operands of a comparison flips its answer. *)
Lemma SFcompare_swap (x y : spec_float) :
  SFcompare y x = option_map CompOpp (SFcompare x y).
Proof.
  destruct x as [sx|sx| |sx mx ex], y as [sy|sy| |sy my ey]; simpl;
    try reflexivity;
    try (destruct sx; reflexivity);
    try (destruct sy; reflexivity);
    try (destruct sx, sy; reflexivity).
  destruct sx, sy; simpl; try reflexivity;
    rewrite (Z.compare_antisym ex ey);
    destruct (ex ?= ey)%Z; simpl; try reflexivity;
    rewrite (Pos.compare_cont_antisym mx my Eq); reflexivity.
Qed.

Lemma SFcompare_refl_finite (s : bool) (m : positive) (e : Z) :
  SFcompare (S754_finite s m e) (S754_finite s m e) = Some Eq.
Proof.
  simpl. rewrite Z.compare_refl, Pos.compare_cont_refl.
  now destruct s.
Qed.

Lemma SFeqb_SFleb (x y : spec_float) :
  SFeqb x y = true -> SFleb x y = true.
Proof.
  unfold SFeqb, SFleb.
  destruct (SFcompare x y) as [[ | | ]|]; congruence.
Qed.

Lemma SFleb_SFltb_swap (x y : spec_float) :
  SFleb y x = true -> SFltb x y = false.
Proof.
  unfold SFleb, SFltb. rewrite (SFcompare_swap x y).
  destruct (SFcompare x y) as [[ | | ]|]; simpl; congruence.
Qed.

(** Two numbers that are comparable (neither is [NaN]) are ordered one way
    or the other. *)
Lemma SFltb_false_SFleb (x y : spec_float) :
  SFcompare x y <> None -> SFltb y x = false -> SFleb x y = true.
Proof.
  unfold SFleb, SFltb. rewrite (SFcompare_swap x y).
  destruct (SFcompare x y) as [[ | | ]|]; simpl; congruence.
Qed.

Lemma nonneg_SFleb (x : spec_float) :
  nonneg x <-> SFleb (S754_zero false) x = true.
Proof.
  destruct x as [s|s| |s m e]; simpl; unfold SFleb; simpl;
    try (destruct s; simpl); intuition congruence.
Qed.

(** ** Constants and classes *)

Lemma Prim2SF_0 : Prim2SF 0 = S754_zero false.
Proof. vm_compute. reflexivity. Qed.

Lemma Prim2SF_100 : Prim2SF 100 = S754_finite false 7036874417766400 (-46).
Proof. vm_compute. reflexivity. Qed.

Lemma Prim2SF_infinity : Prim2SF infinity = S754_infinity false.
Proof. vm_compute. reflexivity. Qed.

(** A finite number is a zero or has a mantissa and an exponent. *)
Lemma is_finite_cases (x : float) :
  is_finite x = true ->
  match Prim2SF x with
  | S754_zero _ | S754_finite _ _ _ => True
  | S754_infinity _ | S754_nan => False
  end.
Proof.
  unfold is_finite, is_nan, is_infinity.
  rewrite !eqb_spec, abs_spec, Prim2SF_infinity.
  destruct (Prim2SF x) as [s|s| |s m e]; trivial; intros H.
  - rewrite orb_true_r in H. discriminate H.
  - discriminate H.
Qed.

Lemma is_finite_not_infinity (x : float) :
  is_finite x = true -> Prim2SF x <> S754_infinity false.
Proof.
  intros H E. apply is_finite_cases in H. now rewrite E in H.
Qed.

(** A number greater than zero is truthy: the first conjunct of the guard
    [d && d > 0] follows from the second. *)
Lemma positive_truthy (d : float) : (0 <? d) = true -> truthy d = true.
Proof.
  intros H. rewrite ltb_spec, Prim2SF_0 in H.
  unfold truthy, is_zero, is_nan. rewrite !eqb_spec.
  change (Prim2SF zero) with (Prim2SF 0). rewrite Prim2SF_0.
  destruct (Prim2SF d) as [s|s| |s m e] eqn:E; try discriminate H.
  - destruct s; [discriminate H|reflexivity].
  - unfold SFeqb at 2. rewrite SFcompare_refl_finite.
    destruct s; [discriminate H|reflexivity].
Qed.

Lemma guard_positive (d : float) : truthy d && (0 <? d) = (0 <? d).
Proof.
  destruct (0 <? d) eqn:H; [|apply andb_false_r].
  now rewrite (positive_truthy d H).
Qed.

Lemma zero_or_negative_not_positive (d : float) :
  (d =? 0) || (d <? 0) = true -> (0 <? d) = false.
Proof.
  intros H. rewrite ltb_spec. apply SFleb_SFltb_swap.
  apply orb_true_iff in H. rewrite eqb_spec, ltb_spec in H.
  destruct H as [H|H].
  - now apply SFeqb_SFleb.
  - unfold SFltb in H. unfold SFleb.
    destruct (SFcompare (Prim2SF d) (Prim2SF 0)) as [[ | | ]|]; congruence.
Qed.

(** ** Signs of quotients and products *)

(** Shifting right keeps a mantissa non-negative. *)
Lemma shr_1_nonneg (mrs : shr_record) :
  (0 <= shr_m mrs)%Z -> (0 <= shr_m (shr_1 mrs))%Z.
Proof.
  destruct mrs as [m r s]; simpl.
  destruct m as [|[p|p| ]|[p|p| ]]; simpl; lia.
Qed.

Lemma iter_pos_shr_1_nonneg (p : positive) (mrs : shr_record) :
  (0 <= shr_m mrs)%Z -> (0 <= shr_m (iter_pos shr_1 p mrs))%Z.
Proof.
  revert mrs.
  induction p as [p IH|p IH| ]; intros mrs H; simpl.
  - apply IH, IH, shr_1_nonneg, H.
  - apply IH, IH, H.
  - apply shr_1_nonneg, H.
Qed.

Lemma shr_fexp_nonneg (m e : Z) (l : location) :
  (0 <= m)%Z -> (0 <= shr_m (fst (shr_fexp prec emax m e l)))%Z.
Proof.
  intros H. unfold shr_fexp, shr.
  assert (H0 : (0 <= shr_m (shr_record_of_loc m l))%Z)
    by (destruct l as [|[ | | ]]; exact H).
  destruct (fexp prec emax (Zdigits2 m + e) - e)%Z; simpl;
    auto using iter_pos_shr_1_nonneg.
Qed.

Lemma round_nearest_even_nonneg (m : Z) (l : location) :
  (0 <= m)%Z -> (0 <= round_nearest_even m l)%Z.
Proof.
  intros H. destruct l as [|[ | | ]]; simpl; try lia.
  destruct (Z.even m); lia.
Qed.

(** Rounding a non-negative mantissa with a positive sign gives a
    non-negative number, never [NaN]. *)
Lemma binary_round_aux_nonneg (m e : Z) (l : location) :
  (0 <= m)%Z -> nonneg (binary_round_aux prec emax false m e l).
Proof.
  intros H. unfold binary_round_aux.
  pose proof (shr_fexp_nonneg m e l H) as H1.
  destruct (shr_fexp prec emax m e l) as [mrs1 e1]; simpl in H1.
  pose proof (shr_fexp_nonneg _ e1 loc_Exact
                (round_nearest_even_nonneg _ (loc_of_shr_record mrs1) H1))
    as H2.
  destruct (shr_fexp prec emax _ e1 loc_Exact) as [mrs2 e2]; simpl in H2.
  destruct (shr_m mrs2) as [|q|q]; simpl; auto; try lia.
  destruct (Z.leb _ _); exact eq_refl.
Qed.

Lemma SFdiv_core_binary_nonneg (m1 m2 : positive) (e1 e2 : Z) :
  (0 <= fst (fst (SFdiv_core_binary prec emax (Zpos m1) e1 (Zpos m2) e2)))%Z.
Proof.
  unfold SFdiv_core_binary.
  set (s := (e1 - e2 - _)%Z).
  set (m' := match s with Z0 => Zpos m1 | Zpos _ => Z.shiftl (Zpos m1) s
                        | Zneg _ => 0%Z end).
  assert (Hm : (0 <= m')%Z).
  { subst m'. destruct s; try lia. apply Z.shiftl_nonneg. lia. }
  pose proof (Z_div_mod m' (Zpos m2) eq_refl) as Hd.
  destruct (Z.div_eucl m' (Zpos m2)) as [q r]; simpl.
  destruct Hd as [Hq Hr]. nia.
Qed.

(** The quotient of a non-negative number by a positive one is
    non-negative, unless both are infinite (then it is [NaN]). *)
Lemma SF64div_nonneg (x y : spec_float) :
  nonneg x -> SFltb (S754_zero false) y = true ->
  x <> S754_infinity false \/ y <> S754_infinity false ->
  nonneg (SF64div x y).
Proof.
  intros Hx Hy Hfin.
  destruct x as [sx|sx| |sx mx ex], y as [sy|sy| |sy my ey];
    simpl in Hx; try discriminate Hy; try contradiction; subst;
    try (destruct sy; try discriminate Hy); simpl; auto.
  - destruct Hfin as [H|H]; now elim H.
  - unfold SF64div, SFdiv.
    pose proof (SFdiv_core_binary_nonneg mx my ex ey) as Hq.
    destruct (SFdiv_core_binary prec emax (Zpos mx) ex (Zpos my) ey)
      as [[mz ez] lz]; simpl in Hq.
    now apply binary_round_aux_nonneg.
Qed.

Lemma SF64mul_nonneg (x : spec_float) (m : positive) (e : Z) :
  nonneg x -> nonneg (SF64mul x (S754_finite false m e)).
Proof.
  intros Hx.
  destruct x as [sx|sx| |sx mx ex]; simpl in *; subst; auto.
  apply binary_round_aux_nonneg. lia.
Qed.

(** ** Rounding to one decimal place *)

(** [tenths m e] is the integer nearest to ten times [m * 2^e], and the
    larger one of the two when they are equally near. *)
Lemma tenths_nearest (m : positive) (e : Z) :
  let n := Z.of_N (tenths m e) in
  ((2 * n - 1) * denominator e <= 20 * numerator m e
   < (2 * n + 1) * denominator e)%Z.
Proof.
  unfold tenths, numerator, denominator.
  destruct e as [|p|p]; cbn zeta.
  - cbn. lia.
  - change (Z.max (Zpos p) 0) with (Zpos p).
    change (Z.max (- Zpos p) 0) with 0%Z. rewrite Z.pow_0_r.
    assert (0 < 2 ^ Zpos p)%Z by (apply Z.pow_pos_nonneg; lia).
    set (d := (2 ^ Zpos p)%Z) in *.
    rewrite Z2N.id by nia. nia.
  - change (Z.max (Zneg p) 0) with 0%Z.
    change (Z.max (- Zneg p) 0) with (Zpos p). rewrite Z.pow_0_r.
    assert (Hd : (0 < 2 ^ Zpos p)%Z) by (apply Z.pow_pos_nonneg; lia).
    rewrite Z.pow_add_r, Z.pow_1_r by lia.
    set (d := (2 ^ Zpos p)%Z) in *.
    set (a := (20 * Zpos m + d)%Z).
    assert (Ha : (0 <= a)%Z) by (subst a; lia).
    pose proof (Z.div_mod a (d * 2) ltac:(lia)) as Hdm.
    pose proof (Z.mod_pos_bound a (d * 2) ltac:(lia)) as Hmod.
    assert (0 <= a / (d * 2))%Z by (apply Z.div_pos; lia).
    rewrite Z2N.id by assumption.
    subst a. nia.
Qed.

(** [toFixed(1)] of a finite number below 10^21 in magnitude prints its
    magnitude rounded to one decimal place, after a minus sign when the
    number is below zero. *)
Lemma toFixed1_nearest_tenth (Number_toString : float -> string)
    (x : float) :
  is_finite x = true ->
  (1e21 <=? abs x) = false ->
  exists n : N,
    toFixed1 Number_toString x = one_decimal (x <? 0) n /\
    nearest_tenth x n.
Proof.
  intros Hfin Hlt. unfold toFixed1, nearest_tenth.
  rewrite Hfin, Hlt, ltb_spec, Prim2SF_0. cbn [negb orb].
  apply is_finite_cases in Hfin.
  destruct (Prim2SF x) as [s|s| |s m e]; try contradiction.
  - exists 0%N. split; reflexivity.
  - exists (tenths m e). split.
    + now destruct s.
    + apply tenths_nearest.
Qed.

End JsNumberFacts.

(* ================================================================== *)
(** * Properties of the tank gauge *)
(* ================================================================== *)

Module TankerWeightLogSpec.

Import TankerWeightLog Vocabulary JsNumberFacts.

(** The unclamped percentage of a non-negative weight and a positive
    capacity, not both infinite, is a non-negative number. *)
Lemma percent_nonneg (weight maxCapacity : float) :
  is_finite weight || is_finite maxCapacity = true ->
  (0 <=? weight) = true ->
  (0 <? maxCapacity) = true ->
  nonneg (Prim2SF (weight / maxCapacity * 100)).
Proof.
  intros Hfin Hw Hm.
  rewrite leb_spec, Prim2SF_0 in Hw. rewrite ltb_spec, Prim2SF_0 in Hm.
  rewrite mul_spec, div_spec, Prim2SF_100.
  apply SF64mul_nonneg, SF64div_nonneg; auto.
  - now apply nonneg_SFleb.
  - apply orb_true_iff in Hfin.
    destruct Hfin as [H|H]; [left|right]; now apply is_finite_not_infinity.
Qed.

(** C4: for every weight >= 0 and every maxCapacity > 0 the fill percent of
    the gauge refresh, weight / maxCapacity * 100 clamped above at 100,
    lies in the interval [0, 100]; weight 6000 with capacity 5000 gives
    exactly 100.  Weight and capacity are quantities in kilograms: they are
    not both the value [Infinity], whose quotient is no number; with the
    capacity of 5000 the script runs with, every weight >= 0 is covered.
    The percentage is the one the refresh writes as the gauge height. *)
Theorem fillPercent_in_range :
  (forall weight maxCapacity : float,
      is_finite weight || is_finite maxCapacity = true ->
      (0 <=? weight) = true ->
      (0 <? maxCapacity) = true ->
      (0 <=? fillPercent weight maxCapacity) = true /\
      (fillPercent weight maxCapacity <=? 100) = true) /\
  (forall weight : float,
      (0 <=? weight) = true ->
      (0 <=? fillPercent weight default_maxCapacity) = true /\
      (fillPercent weight default_maxCapacity <=? 100) = true) /\
  fillPercent 6000 5000 = 100 /\
  (forall Number_toString deviceId maxCapacity r records dom,
      liquid_level_height
        (on_records Number_toString deviceId maxCapacity (r :: records) dom)
      = Number_toString (fillPercent r.(weight) maxCapacity) ++ "%").
Proof.
  assert (Hrange : forall weight maxCapacity : float,
             is_finite weight || is_finite maxCapacity = true ->
             (0 <=? weight) = true ->
             (0 <? maxCapacity) = true ->
             (0 <=? fillPercent weight maxCapacity) = true /\
             (fillPercent weight maxCapacity <=? 100) = true).
  { intros weight maxCapacity Hfin Hw Hm.
    pose proof (percent_nonneg weight maxCapacity Hfin Hw Hm) as Hp.
    unfold fillPercent.
    destruct (100 <? weight / maxCapacity * 100) eqn:Hgt.
    - split; reflexivity.
    - set (p := weight / maxCapacity * 100) in *.
      rewrite ltb_spec in Hgt. rewrite !leb_spec, Prim2SF_0.
      split.
      + now apply nonneg_SFleb.
      + apply SFltb_false_SFleb; [|exact Hgt].
        rewrite Prim2SF_100.
        destruct (Prim2SF p) as [s|s| |s m e]; cbv [SFcompare];
          try discriminate.
        destruct Hp. }
  split; [exact Hrange|]. split; [|split; reflexivity].
  intros weight Hw. apply Hrange; [|exact Hw|reflexivity].
  apply orb_true_iff. right. reflexivity.
Qed.

Lemma fillPercent_in_range_witness :
  (0 <=? fillPercent 250 5000) = true /\
  (fillPercent 250 5000 <=? 100) = true.
Proof.
  apply (proj1 fillPercent_in_range 250 5000); reflexivity.
Defined.

(** C5: the fill colour is the warning colour exactly when
    fillPercent < 10, and the normal colour otherwise, in particular when
    fillPercent >= 10 and at the boundary fillPercent = 10; this is the
    colour the refresh writes to the gauge. *)
Theorem color_threshold :
  forall fillPercent : float,
    (color fillPercent = "#f44336" <-> (fillPercent <? 10) = true) /\
    (color fillPercent = "#2196F3" <-> (fillPercent <? 10) = false) /\
    ((10 <=? fillPercent) = true -> color fillPercent = "#2196F3") /\
    color 10 = "#2196F3" /\
    (forall Number_toString deviceId maxCapacity r records dom,
        liquid_level_backgroundColor
          (on_records Number_toString deviceId maxCapacity (r :: records) dom)
        = color (TankerWeightLog.fillPercent r.(weight) maxCapacity)).
Proof.
  intros fp. unfold color.
  split; [|split; [|split; [|split]]].
  - destruct (fp <? 10); split; congruence.
  - destruct (fp <? 10); split; congruence.
  - intros H. rewrite leb_spec in H.
    apply SFleb_SFltb_swap in H. rewrite <- ltb_spec in H.
    now rewrite H.
  - reflexivity.
  - reflexivity.
Qed.

Lemma color_threshold_witness :
  color 10 = "#2196F3" /\ color 12.5 = "#2196F3".
Proof.
  split.
  - apply (proj1 (proj2 (proj2 (color_threshold 10)))). reflexivity.
  - apply (proj1 (proj2 (proj2 (color_threshold 12.5)))). reflexivity.
Defined.

(** C7: when the query returns no reading the callback changes nothing:
    gauge height, weight display, device label and fill colour keep their
    prior values; so for the configured device, on every tick. *)
Theorem no_reading_no_update :
  forall (Number_toString : float -> string) (dom : Dom),
    (forall (deviceId : string) (maxCapacity : option float),
        snd (updateTankGraphic Number_toString deviceId maxCapacity) [] dom
        = dom) /\
    let dom' := snd (poll Number_toString) [] dom in
    dom' = dom /\
    liquid_level_height dom' = liquid_level_height dom /\
    weight_display dom' = weight_display dom /\
    device_label dom' = device_label dom /\
    liquid_level_backgroundColor dom' = liquid_level_backgroundColor dom.
Proof.
  intros nts dom. split.
  - intros deviceId maxCapacity. reflexivity.
  - cbn zeta. unfold poll, updateTankGraphic. cbn [snd on_records].
    repeat split.
Qed.

End TankerWeightLogSpec.

(* ================================================================== *)
(** * Properties of the stock dashboard *)
(* ================================================================== *)

Module StockDashboardSpec.

Import JsNumber StockDashboard Vocabulary JsNumberFacts.

(** ** One row *)

Lemma excluded_not_included (i : StockRow) :
  absent_zero_or_negative i = true -> daysRemaining i = None.
Proof.
  unfold absent_zero_or_negative, daysRemaining.
  destruct (custom_no_of_days i) as [d|]; [|reflexivity].
  intros H. now rewrite (zero_or_negative_not_positive d H).
Qed.

Lemma forEach_body_counts (t : Totals) (i : StockRow) :
  critical (forEach_body t i)
    = (if isCritical i then S t.(critical) else t.(critical)) /\
  healthy (forEach_body t i)
    = (if isCritical i then t.(healthy) else S t.(healthy)).
Proof.
  unfold forEach_body, isCritical.
  destruct (actual_qty i <=? reorder_level i);
    destruct (custom_no_of_days i) as [d|];
    try destruct (truthy d && (0 <? d)); split; reflexivity.
Qed.

Lemma forEach_body_days (t : Totals) (i : StockRow) :
  match daysRemaining i with
  | Some q =>
      total_days (forEach_body t i) = t.(total_days) + q /\
      valid_day_items (forEach_body t i) = S t.(valid_day_items)
  | None =>
      total_days (forEach_body t i) = t.(total_days) /\
      valid_day_items (forEach_body t i) = t.(valid_day_items)
  end.
Proof.
  unfold forEach_body, daysRemaining.
  destruct (custom_no_of_days i) as [d|].
  - rewrite guard_positive.
    destruct (0 <? d); destruct (actual_qty i <=? reorder_level i);
      split; reflexivity.
  - destruct (actual_qty i <=? reorder_level i); split; reflexivity.
Qed.

Lemma card_badge (Number_toString : float -> string) (i : StockRow) :
  badge_text (card Number_toString i)
    = (if isCritical i then "Critical" else "Healthy") /\
  card_class (card Number_toString i)
    = (if isCritical i then "critical" else "safe") /\
  badge_class (card Number_toString i)
    = (if isCritical i then "badge-critical" else "badge-healthy").
Proof. split; [|split]; reflexivity. Qed.

Lemma card_days_remaining (Number_toString : float -> string)
    (i : StockRow) :
  card_days (card Number_toString i)
  = match daysRemaining i with
    | Some q => JStr (toFixed1 Number_toString q)
    | None => JNum 0
    end.
Proof.
  unfold card, days_remaining, daysRemaining; cbn [card_days].
  destruct (custom_no_of_days i) as [d|]; [|reflexivity].
  rewrite guard_positive. now destruct (0 <? d).
Qed.

(** ** The loop of lines 276-287, from any starting totals *)

Lemma count_occ_cons (b x : string) (l : list string) :
  count_occ string_dec (x :: l) b
  = ((if String.eqb x b then 1 else 0) + count_occ string_dec l b)%nat.
Proof.
  cbn [count_occ].
  destruct (string_dec x b) as [E|E].
  - apply String.eqb_eq in E. now rewrite E.
  - apply String.eqb_neq in E. now rewrite E.
Qed.

Lemma fold_forEach_body (Number_toString : float -> string)
    (data : list StockRow) (t : Totals) :
  let t' := fold_left forEach_body data t in
  let cards := map (card Number_toString) data in
  (critical t' = t.(critical) + badged "Critical" cards)%nat /\
  (healthy t' = t.(healthy) + badged "Healthy" cards)%nat /\
  (critical t' = t.(critical) + bordered "critical" cards)%nat /\
  (healthy t' = t.(healthy) + bordered "safe" cards)%nat /\
  (critical t' + healthy t'
   = t.(critical) + t.(healthy) + List.length data)%nat /\
  (valid_day_items t'
   = t.(valid_day_items) + List.length (includedDays data))%nat /\
  total_days t' = fold_left add (includedDays data) t.(total_days).
Proof.
  revert t. induction data as [|i data IH]; intros t; cbn zeta.
  - cbn. repeat split; lia.
  - cbn [fold_left map includedDays List.length].
    specialize (IH (forEach_body t i)). cbn zeta in IH.
    destruct IH as (Hc & Hh & Hc' & Hh' & Hsum & Hv & Hd).
    destruct (forEach_body_counts t i) as [Ec Eh].
    pose proof (forEach_body_days t i) as Ed.
    destruct (card_badge Number_toString i) as (Eb & Ek & _).
    unfold badged, bordered in *. cbn [map].
    rewrite !count_occ_cons, Eb, Ek, Hd.
    destruct (isCritical i);
      destruct (daysRemaining i) as [q|]; destruct Ed as [Ed1 Ed2];
      rewrite Ed1; cbn [String.eqb Ascii.eqb Bool.eqb fold_left List.length];
      repeat split; lia.
Qed.

Lemma forEach_totals (Number_toString : float -> string)
    (data : list StockRow) :
  let cards := map (card Number_toString) data in
  critical (forEach data) = badged "Critical" cards /\
  healthy (forEach data) = badged "Healthy" cards /\
  critical (forEach data) = bordered "critical" cards /\
  healthy (forEach data) = bordered "safe" cards /\
  (critical (forEach data) + healthy (forEach data)
   = List.length data)%nat /\
  valid_day_items (forEach data) = List.length (includedDays data) /\
  total_days (forEach data) = sumDays (includedDays data).
Proof.
  exact (fold_forEach_body Number_toString data totals0).
Qed.

(** ** The claims *)

(** C1: a row is classified Critical exactly when
    actual_qty <= reorder_level and Healthy otherwise, for the badge, the
    border class and the counters alike; a row whose actual_qty equals its
    reorder_level is Critical. *)
Theorem classification_inclusive :
  forall (Number_toString : float -> string) (i : StockRow) (t : Totals),
    let c := card Number_toString i in
    let t' := forEach_body t i in
    (badge_text c = "Critical"
     <-> (i.(actual_qty) <=? i.(reorder_level)) = true) /\
    (badge_text c = "Healthy"
     <-> (i.(actual_qty) <=? i.(reorder_level)) = false) /\
    (card_class c = "critical"
     <-> (i.(actual_qty) <=? i.(reorder_level)) = true) /\
    (card_class c = "safe"
     <-> (i.(actual_qty) <=? i.(reorder_level)) = false) /\
    (critical t' = S t.(critical) /\ healthy t' = t.(healthy)
     <-> (i.(actual_qty) <=? i.(reorder_level)) = true) /\
    (critical t' = t.(critical) /\ healthy t' = S t.(healthy)
     <-> (i.(actual_qty) <=? i.(reorder_level)) = false) /\
    ((i.(actual_qty) =? i.(reorder_level)) = true ->
     badge_text c = "Critical" /\ card_class c = "critical" /\
     critical t' = S t.(critical) /\ healthy t' = t.(healthy)).
Proof.
  intros nts i t c t'.
  destruct (card_badge nts i) as (Eb & Ek & _).
  destruct (forEach_body_counts t i) as [Ec Eh].
  fold c in Eb, Ek. fold t' in Ec, Eh.
  assert (Heq : (i.(actual_qty) =? i.(reorder_level)) = true ->
                isCritical i = true).
  { unfold isCritical. rewrite eqb_spec, leb_spec. apply SFeqb_SFleb. }
  rewrite Eb, Ek, Ec, Eh. fold (isCritical i).
  destruct (isCritical i).
  - repeat split; intros; try reflexivity; try discriminate; lia.
  - repeat split; intros; try reflexivity; try discriminate;
      try lia; specialize (Heq ltac:(assumption)); discriminate.
Qed.

Lemma classification_inclusive_witness :
  badge_text (card unused_toString row_at_threshold) = "Critical" /\
  card_class (card unused_toString row_at_threshold) = "critical" /\
  critical (forEach_body totals0 row_at_threshold) = 1%nat /\
  healthy (forEach_body totals0 row_at_threshold) = 0%nat.
Proof.
  destruct (classification_inclusive unused_toString row_at_threshold
              totals0) as (_ & _ & _ & _ & _ & _ & H).
  apply H. reflexivity.
Defined.

(** C2: the counts the loop computes add up to the number of rows, and so
    do the tiles [render_data] writes for a list that has rows, where the
    total tile is the length of the list. *)
Theorem aggregate_consistency :
  (forall data : list StockRow,
      (critical (forEach data) + healthy (forEach data)
       = List.length data)%nat) /\
  (forall (Number_toString : float -> string) (i : StockRow)
          (rest : list StockRow) (dom : Dom),
      let d := render_data Number_toString (i :: rest) dom in
      (critical_items d + healthy_items d = total_items d)%nat /\
      total_items d = List.length (i :: rest)).
Proof.
  split.
  - intros data.
    destruct (forEach_totals unused_toString data)
      as (_ & _ & _ & _ & H & _).
    exact H.
  - intros nts i rest dom d. split; [|reflexivity].
    destruct (forEach_totals nts (i :: rest)) as (_ & _ & _ & _ & H & _).
    exact H.
Qed.

(** C3: a row whose days-of-supply is absent, zero or negative is left out
    of the average and its card shows the number 0 as days remaining; the
    loop counts the included rows and sums actual_qty / custom_no_of_days
    over them; avg_days is that sum divided by that count and printed by
    toFixed(1) when the count is positive, which for a finite quotient
    below 10^21 is the quotient rounded to one decimal place, and is the
    number 0 when no row is included; that is the value [render_data]
    writes to the tile. *)
Theorem average_days_exclusion :
  forall (Number_toString : float -> string) (data : list StockRow),
    let t := forEach data in
    let qs := includedDays data in
    let avg := sumDays qs / of_nat (List.length qs) in
    (forall i : StockRow,
        absent_zero_or_negative i = true ->
        daysRemaining i = None /\
        card_days (card Number_toString i) = JNum 0 /\
        (forall t0 : Totals,
            total_days (forEach_body t0 i) = t0.(total_days) /\
            valid_day_items (forEach_body t0 i) = t0.(valid_day_items))) /\
    valid_day_items t = List.length qs /\
    total_days t = sumDays qs /\
    ((0 < List.length qs)%nat ->
     avg_days Number_toString t = JStr (toFixed1 Number_toString avg) /\
     (is_finite avg = true -> (1e21 <=? abs avg) = false ->
      exists n : N,
        avg_days Number_toString t = JStr (one_decimal (avg <? 0) n) /\
        nearest_tenth avg n)) /\
    (List.length qs = 0%nat -> avg_days Number_toString t = JNum 0) /\
    (forall dom : Dom,
        data <> [] ->
        avg_days_tile (render_data Number_toString data dom)
        = avg_days Number_toString t).
Proof.
  intros nts data t qs avg.
  destruct (forEach_totals nts data) as (_ & _ & _ & _ & _ & Hv & Hd).
  fold t in Hv, Hd. fold qs in Hv, Hd.
  split; [|split; [exact Hv|split; [exact Hd|split; [|split]]]].
  - intros i Hex.
    pose proof (excluded_not_included i Hex) as Hnone.
    split; [exact Hnone|split].
    + now rewrite card_days_remaining, Hnone.
    + intros t0. pose proof (forEach_body_days t0 i) as Ed.
      rewrite Hnone in Ed. exact Ed.
  - intros Hpos.
    assert (Havg : avg_days nts t = JStr (toFixed1 nts avg)).
    { unfold avg_days, avg. rewrite Hd, Hv.
      destruct (List.length qs); [lia|reflexivity]. }
    split; [exact Havg|].
    intros Hfin Hlt.
    destruct (toFixed1_nearest_tenth nts avg Hfin Hlt) as (n & En & Hn).
    exists n. now rewrite Havg, En.
  - intros Hnone. unfold avg_days. rewrite Hv, Hnone. reflexivity.
  - intros dom Hdata. destruct data; [contradiction|reflexivity].
Qed.

Lemma average_days_exclusion_witness :
  avg_days unused_toString (forEach [row_counted; row_at_threshold])
    = JStr "10.0" /\
  card_days (card unused_toString row_at_threshold) = JNum 0.
Proof.
  destruct (average_days_exclusion unused_toString
              [row_counted; row_at_threshold])
    as (Hex & _ & _ & Havg & _).
  split.
  - destruct Havg as [Havg _]; [vm_compute; lia|].
    rewrite Havg. vm_compute. reflexivity.
  - apply (Hex row_at_threshold). reflexivity.
Defined.

(** C6: for an empty list [render_data] shows the empty-state message and
    leaves the four summary tiles as they were; an answer without rows
    reaches it as the empty list. *)
Theorem empty_rows_keep_tiles :
  forall (Number_toString : float -> string) (page : Page) (dom : Dom),
    let d := render_data Number_toString [] dom in
    stock_cards_container d
      = Html "<div class='empty-state'>No stock found.</div>" /\
    total_items d = dom.(total_items) /\
    critical_items d = dom.(critical_items) /\
    healthy_items d = dom.(healthy_items) /\
    avg_days_tile d = dom.(avg_days_tile) /\
    (forall (c : Call) (dom0 : Dom),
        In c (snd (refresh_data Number_toString page dom0)) ->
        callback c None dom = d /\ callback c (Some []) dom = d).
Proof.
  intros nts page dom d.
  do 5 (split; [reflexivity|]).
  intros c dom0 [Hc|[]]. subst c. split; reflexivity.
Qed.

Lemma empty_rows_keep_tiles_witness :
  match snd (refresh_data unused_toString page_defaults initial_dom) with
  | [c] =>
      callback c (Some []) dom_two_rows
      = render_data unused_toString [] dom_two_rows /\
      total_items (callback c (Some []) dom_two_rows) = 2%nat
  | _ => False
  end.
Proof.
  destruct (empty_rows_keep_tiles unused_toString page_defaults
              dom_two_rows) as (_ & Ht & _ & _ & _ & H).
  cbn [refresh_data snd].
  destruct (H _ initial_dom (or_introl eq_refl)) as [_ Hc].
  split; [exact Hc|]. rewrite Hc. exact Ht.
Defined.

(** C8: a card shows the label "Multiple" for a row whose warehouse is
    unset or empty, and the warehouse itself when it is not empty. *)
Theorem warehouse_default :
  forall (Number_toString : float -> string) (i : StockRow),
    (i.(warehouse) = None \/ i.(warehouse) = Some "" ->
     card_warehouse (card Number_toString i) = "Multiple") /\
    (forall w : string,
        i.(warehouse) = Some w -> w <> "" ->
        card_warehouse (card Number_toString i) = w).
Proof.
  intros nts i. unfold card; cbn [card_warehouse]. split.
  - intros [H|H]; rewrite H; reflexivity.
  - intros w H Hw. rewrite H. destruct w; [contradiction|reflexivity].
Qed.

Lemma warehouse_default_witness :
  card_warehouse (card unused_toString row_at_threshold) = "Multiple" /\
  card_warehouse (card unused_toString row_counted) = "Stores".
Proof.
  split.
  - apply (proj1 (warehouse_default unused_toString row_at_threshold)).
    left. reflexivity.
  - apply (proj2 (warehouse_default unused_toString row_counted) "Stores").
    + reflexivity.
    + discriminate.
Defined.

(** C9: a refresh issues one remote call, whose named arguments are the
    five current control values, each under its own key whether the control
    has a value or not. *)
Theorem refresh_passes_five_filters :
  forall (Number_toString : float -> string) (page : Page) (dom : Dom),
    exists c : Call,
      snd (refresh_data Number_toString page dom) = [c] /\
      method c
        = "dairy.dairy.page.stock_dashboard.stock_dashboard.get_stock_data"
      /\
      args c = [ ("warehouse", page.(wh_f));
                 ("item_code", page.(item_f));
                 ("item_group", page.(group_f));
                 ("stock_status", page.(status_f));
                 ("sort_order", page.(sort_f)) ] /\
      map fst (args c)
        = ["warehouse"; "item_code"; "item_group"; "stock_status";
           "sort_order"].
Proof.
  intros nts page dom. eexists.
  split; [reflexivity|]. split; [reflexivity|]. split; reflexivity.
Qed.

(** C10: the loop and the cards use the same test: each row raises the
    counter that matches its badge and border, so the cards badged Critical
    are as many as [critical] and those badged Healthy as many as
    [healthy], also in the page [render_data] leaves. *)
Theorem badges_agree_with_counts :
  forall (Number_toString : float -> string),
    (forall (i : StockRow) (t0 : Totals),
        let c := card Number_toString i in
        let t' := forEach_body t0 i in
        (badge_text c = "Critical" /\ card_class c = "critical" /\
         badge_class c = "badge-critical" /\
         critical t' = S t0.(critical) /\ healthy t' = t0.(healthy)) \/
        (badge_text c = "Healthy" /\ card_class c = "safe" /\
         badge_class c = "badge-healthy" /\
         critical t' = t0.(critical) /\ healthy t' = S t0.(healthy))) /\
    (forall data : list StockRow,
        let cards := map (card Number_toString) data in
        badged "Critical" cards = critical (forEach data) /\
        badged "Healthy" cards = healthy (forEach data) /\
        bordered "critical" cards = critical (forEach data) /\
        bordered "safe" cards = healthy (forEach data)) /\
    (forall (i : StockRow) (rest : list StockRow) (dom : Dom),
        let d := render_data Number_toString (i :: rest) dom in
        exists cards : list Card,
          stock_cards_container d = Cards cards /\
          cards = map (card Number_toString) (i :: rest) /\
          badged "Critical" cards = critical_items d /\
          badged "Healthy" cards = healthy_items d).
Proof.
  intros nts. split; [|split].
  - intros i t0 c t'.
    destruct (card_badge nts i) as (Eb & Ek & Ec).
    destruct (forEach_body_counts t0 i) as [Hc Hh].
    fold c in Eb, Ek, Ec. fold t' in Hc, Hh.
    rewrite Eb, Ek, Ec, Hc, Hh.
    destruct (isCritical i); [left|right]; repeat split.
  - intros data cards.
    destruct (forEach_totals nts data) as (Hc & Hh & Hc' & Hh' & _).
    fold cards in Hc, Hh, Hc', Hh'.
    repeat split; congruence.
  - intros i rest dom d. eexists.
    split; [reflexivity|]. split; [reflexivity|].
    destruct (forEach_totals nts (i :: rest)) as (Hc & Hh & _).
    split; [symmetry; exact Hc|symmetry; exact Hh].
Qed.

End StockDashboardSpec.

(* ================================================================== *)
(** * More facts about binary64 numbers *)
(* ================================================================== *)

Module MoreNumberFacts.

Import JsNumber Vocabulary MoreVocabulary JsNumberFacts.

Lemma Prim2SF_nan_is_nan (x : float) :
  Prim2SF x = S754_nan <-> is_nan x = true.
Proof.
  unfold is_nan. rewrite eqb_spec.
  destruct (Prim2SF x) as [s|s| |s m e]; unfold SFeqb.
  - cbn. split; discriminate.
  - destruct s; cbn; split; discriminate.
  - cbn. split; reflexivity.
  - rewrite SFcompare_refl_finite. cbn. split; discriminate.
Qed.

Lemma Prim2SF_10 : Prim2SF 10 = S754_finite false 5629499534213120 (-49).
Proof. vm_compute. reflexivity. Qed.

Lemma SFleb_nan_l (y : spec_float) : SFleb S754_nan y = false.
Proof. reflexivity. Qed.

Lemma SFleb_nan_r (x : spec_float) : SFleb x S754_nan = false.
Proof. destruct x; reflexivity. Qed.

Lemma SFltb_nan_r (x : spec_float) : SFltb x S754_nan = false.
Proof. destruct x; reflexivity. Qed.

Lemma nonpos_SFleb (x : spec_float) :
  nonpos x <-> SFleb x (S754_zero false) = true.
Proof.
  destruct x as [s|s| |s m e]; simpl; unfold SFleb; simpl;
    try (destruct s; simpl); intuition congruence.
Qed.

(** Rounding a non-negative mantissa with a negative sign gives a number
    that is not above zero, never [NaN]. *)
Lemma binary_round_aux_nonpos (m e : Z) (l : location) :
  (0 <= m)%Z -> nonpos (binary_round_aux prec emax true m e l).
Proof.
  intros H. unfold binary_round_aux.
  pose proof (shr_fexp_nonneg m e l H) as H1.
  destruct (shr_fexp prec emax m e l) as [mrs1 e1]; simpl in H1.
  pose proof (shr_fexp_nonneg _ e1 loc_Exact
                (round_nearest_even_nonneg _ (loc_of_shr_record mrs1) H1))
    as H2.
  destruct (shr_fexp prec emax _ e1 loc_Exact) as [mrs2 e2]; simpl in H2.
  destruct (shr_m mrs2) as [|q|q]; simpl; auto; try lia.
  destruct (Z.leb _ _); exact eq_refl.
Qed.

Lemma SF64div_nonpos (x y : spec_float) :
  nonpos x -> SFltb (S754_zero false) y = true ->
  x <> S754_infinity true \/ y <> S754_infinity false ->
  nonpos (SF64div x y).
Proof.
  intros Hx Hy Hfin.
  destruct x as [sx|sx| |sx mx ex], y as [sy|sy| |sy my ey];
    simpl in Hx; try discriminate Hy; try contradiction; subst;
    try (destruct sy; try discriminate Hy); simpl; auto.
  - destruct Hfin as [H|H]; now elim H.
  - unfold SF64div, SFdiv.
    pose proof (SFdiv_core_binary_nonneg mx my ex ey) as Hq.
    destruct (SFdiv_core_binary prec emax (Zpos mx) ex (Zpos my) ey)
      as [[mz ez] lz]; simpl in Hq.
    now apply binary_round_aux_nonpos.
Qed.

Lemma SF64mul_nonpos (x : spec_float) (m : positive) (e : Z) :
  nonpos x -> nonpos (SF64mul x (S754_finite false m e)).
Proof.
  intros Hx.
  destruct x as [sx|sx| |sx mx ex]; simpl in *; subst; auto.
  apply binary_round_aux_nonpos. lia.
Qed.

Lemma is_finite_not_neg_infinity (x : float) :
  is_finite x = true -> Prim2SF x <> S754_infinity true.
Proof.
  intros H E. apply is_finite_cases in H. now rewrite E in H.
Qed.

(** A number that is not above zero is below every positive finite one. *)
Lemma nonpos_below_positive (x : spec_float) (m : positive) (e : Z) :
  nonpos x ->
  SFltb x (S754_finite false m e) = true /\
  SFltb (S754_finite false m e) x = false.
Proof.
  intros H.
  destruct x as [s|s| |s mx ex]; simpl in H; try contradiction; subst;
    split; reflexivity.
Qed.

Lemma decimal_digit (k : N) :
  (k < 10)%N ->
  exists c : ascii, decimal k = String c "" /\ is_digit c = true.
Proof.
  intros H.
  assert (Hk : k = 0%N \/ k = 1%N \/ k = 2%N \/ k = 3%N \/ k = 4%N \/
               k = 5%N \/ k = 6%N \/ k = 7%N \/ k = 8%N \/ k = 9%N) by lia.
  repeat (destruct Hk as [Hk|Hk]; [subst k; eexists; split; reflexivity|]).
  subst k. eexists. split; reflexivity.
Qed.

Lemma append_assoc (a b c : string) : (a ++ b) ++ c = a ++ b ++ c.
Proof.
  induction a as [|x a IH]; [reflexivity|]. cbn. now rewrite IH.
Qed.

End MoreNumberFacts.

(* ================================================================== *)
(** * More properties of the tank gauge *)
(* ================================================================== *)

Module TankerWeightLogExtra.

Import TankerWeightLog Vocabulary MoreVocabulary Sessions.
Import JsNumberFacts MoreNumberFacts.

(** X1: whatever the reading and the capacity (negative, infinite, not a
    number), the fill percent is never above 100: it is at most 100, or it
    is [NaN], and it is [NaN] only when weight / maxCapacity * 100 is. *)
Theorem fillPercent_never_above_100 :
  forall weight maxCapacity : float,
    let p := fillPercent weight maxCapacity in
    (100 <? p) = false /\
    ((p <=? 100) = true \/ is_nan p = true) /\
    (is_nan p = true <-> is_nan (weight / maxCapacity * 100) = true).
Proof.
  intros weight maxCapacity. unfold fillPercent. cbn zeta.
  set (raw := weight / maxCapacity * 100).
  destruct (100 <? raw) eqn:Hgt.
  - split; [reflexivity|]. split; [left; reflexivity|].
    rewrite ltb_spec in Hgt.
    assert (Hn : is_nan raw = false).
    { destruct (is_nan raw) eqn:E; [|reflexivity].
      apply Prim2SF_nan_is_nan in E. rewrite E, SFltb_nan_r in Hgt.
      discriminate Hgt. }
    rewrite Hn. split; discriminate.
  - split; [exact Hgt|]. split; [|reflexivity].
    destruct (is_nan raw) eqn:E; [right; reflexivity|left].
    rewrite ltb_spec in Hgt. rewrite leb_spec.
    apply SFltb_false_SFleb; [|exact Hgt].
    rewrite Prim2SF_100.
    destruct (Prim2SF raw) as [s|s| |s m e] eqn:Er; cbv [SFcompare];
      try discriminate.
    apply Prim2SF_nan_is_nan in Er. rewrite Er in E. discriminate E.
Qed.

(** X2: there is no lower clamp.  For a weight that is zero or negative and
    a capacity above zero (not both infinite) the fill percent is the plain
    weight / maxCapacity * 100, it is not above zero, and the gauge takes
    the warning colour. *)
Theorem fillPercent_not_clamped_below :
  forall weight maxCapacity : float,
    is_finite weight || is_finite maxCapacity = true ->
    (weight <=? 0) = true ->
    (0 <? maxCapacity) = true ->
    fillPercent weight maxCapacity = weight / maxCapacity * 100 /\
    (fillPercent weight maxCapacity <=? 0) = true /\
    color (fillPercent weight maxCapacity) = "#f44336".
Proof.
  intros weight maxCapacity Hfin Hw Hm.
  rewrite leb_spec, Prim2SF_0 in Hw. rewrite ltb_spec, Prim2SF_0 in Hm.
  assert (Hp : nonpos (Prim2SF (weight / maxCapacity * 100))).
  { rewrite mul_spec, div_spec, Prim2SF_100.
    apply SF64mul_nonpos, SF64div_nonpos; auto.
    - now apply nonpos_SFleb.
    - apply orb_true_iff in Hfin. destruct Hfin as [H|H].
      + left. now apply is_finite_not_neg_infinity.
      + right. now apply is_finite_not_infinity. }
  unfold fillPercent, color.
  set (raw := weight / maxCapacity * 100) in *.
  assert (H100 : (100 <? raw) = false).
  { rewrite ltb_spec, Prim2SF_100. now apply nonpos_below_positive. }
  assert (H10 : (raw <? 10) = true).
  { rewrite ltb_spec, Prim2SF_10. now apply nonpos_below_positive. }
  rewrite H100, H10. split; [reflexivity|]. split; [|reflexivity].
  rewrite leb_spec, Prim2SF_0. now apply nonpos_SFleb.
Qed.

Lemma fillPercent_not_clamped_below_witness :
  fillPercent (-250) 5000 = -250 / 5000 * 100 /\
  (fillPercent (-250) 5000 <=? 0) = true /\
  color (fillPercent (-250) 5000) = "#f44336".
Proof.
  apply (fillPercent_not_clamped_below (-250) 5000); reflexivity.
Defined.

(** X3: after the answers to any number of polls, the gauge shows what the
    last answer with a reading wrote, whatever it showed before, and is
    untouched when no answer had a reading. *)
Theorem gauge_shows_last_reading :
  forall (Number_toString : float -> string) (deviceId : string)
         (maxCapacity : option float)
         (answers : list (list WeightLog)) (dom : Dom),
    handle_answers Number_toString deviceId maxCapacity answers dom
    = match last_reading answers with
      | Some r =>
          {| liquid_level_height :=
               Number_toString
                 (fillPercent r.(weight)
                    match maxCapacity with
                    | Some c => c
                    | None => default_maxCapacity
                    end) ++ "%";
             weight_display := Number_toString r.(weight) ++ " kg";
             device_label := "Device: " ++ deviceId;
             liquid_level_backgroundColor :=
               color (fillPercent r.(weight)
                        match maxCapacity with
                        | Some c => c
                        | None => default_maxCapacity
                        end) |}
      | None => dom
      end.
Proof.
  intros nts deviceId maxCapacity answers. unfold handle_answers.
  induction answers as [|records answers IH]; intros dom; [reflexivity|].
  cbn [fold_left last_reading]. rewrite IH.
  destruct (last_reading answers) as [r|]; [reflexivity|].
  destruct records as [|r records]; reflexivity.
Qed.

End TankerWeightLogExtra.

(* ================================================================== *)
(** * More properties of the stock dashboard *)
(* ================================================================== *)

Module StockDashboardExtra.

Import JsNumber StockDashboard Vocabulary MoreVocabulary Sessions.
Import JsNumberFacts MoreNumberFacts StockDashboardSpec.
Import Permutation.

(** ** Steps *)

Lemma step_answer (Number_toString : float -> string) (dom : Dom)
    (page : Page) (message : option (list StockRow)) :
  step Number_toString dom (Answer page message)
  = render_data Number_toString (rows_of message) dom.
Proof. destruct message; reflexivity. Qed.

Lemma last_rows_app_empty (events : list Event) (page : Page)
    (message : option (list StockRow)) :
  rows_of message = [] ->
  last_rows (events ++ [Answer page message]) = last_rows events.
Proof.
  intros H. induction events as [|e events IH]; cbn [app last_rows].
  - now rewrite H.
  - now rewrite IH.
Qed.

(** ** Included rows *)

Lemma includedDays_length (data : list StockRow) :
  (List.length (includedDays data) <= List.length data)%nat.
Proof.
  induction data as [|i data IH]; cbn [includedDays List.length]; [lia|].
  destruct (daysRemaining i); cbn [List.length]; lia.
Qed.

Lemma includedDays_nil (data : list StockRow) :
  includedDays data = [] <->
  (forall i : StockRow, In i data -> daysRemaining i = None).
Proof.
  induction data as [|i data IH]; cbn [includedDays].
  - split; [intros _ i []|reflexivity].
  - destruct (daysRemaining i) as [q|] eqn:E.
    + split; [discriminate|].
      intros H. specialize (H i (or_introl eq_refl)). congruence.
    + rewrite IH. split.
      * intros H j [Hj|Hj]; [now subst j|now apply H].
      * intros H j Hj. apply H. now right.
Qed.

Lemma includedDays_all (data : list StockRow) :
  List.length (includedDays data) = List.length data <->
  (forall i : StockRow, In i data -> daysRemaining i <> None).
Proof.
  induction data as [|i data IH]; cbn [includedDays List.length].
  - split; [intros _ i []|reflexivity].
  - pose proof (includedDays_length data) as Hle.
    destruct (daysRemaining i) as [q|] eqn:E; cbn [List.length].
    + split.
      * intros H j [Hj|Hj]; [subst j; congruence|].
        apply IH; [lia|exact Hj].
      * intros H. f_equal. apply IH. intros j Hj. apply H. now right.
    + split; [lia|].
      intros H. now elim (H i (or_introl eq_refl)).
Qed.

Lemma includedDays_Permutation (data data' : list StockRow) :
  Permutation data data' ->
  Permutation (includedDays data) (includedDays data').
Proof.
  induction 1 as [|i l l' _ IH|i j l|l l' l'' _ IH1 _ IH2];
    cbn [includedDays].
  - constructor.
  - destruct (daysRemaining i); [now constructor|exact IH].
  - destruct (daysRemaining i), (daysRemaining j);
      try apply Permutation_refl.
    apply perm_swap.
  - now transitivity (includedDays l').
Qed.

(** ** The extras *)

(** X4: over any course of refreshes and answers the four tiles show the
    numbers of the last answer that had rows (they keep what the page had
    when none did), while the card container follows the last event alone:
    so after an answer without rows the message "No stock found." stands
    beside the tiles of an earlier answer. *)
Theorem tiles_follow_last_rows :
  forall (Number_toString : float -> string) (events : list Event)
         (dom : Dom),
    let d := run Number_toString events dom in
    match last_rows events with
    | Some data =>
        total_items d = List.length data /\
        critical_items d = critical (forEach data) /\
        healthy_items d = healthy (forEach data) /\
        avg_days_tile d = avg_days Number_toString (forEach data)
    | None =>
        total_items d = dom.(total_items) /\
        critical_items d = dom.(critical_items) /\
        healthy_items d = dom.(healthy_items) /\
        avg_days_tile d = dom.(avg_days_tile)
    end /\
    (forall e : Event,
        stock_cards_container (run Number_toString (events ++ [e]) dom)
        = match e with
          | Refresh _ =>
              Html "<div class='empty-state'>Loading inventory data...</div>"
          | Answer _ message =>
              match rows_of message with
              | [] => Html "<div class='empty-state'>No stock found.</div>"
              | data => Cards (map (card Number_toString) data)
              end
          end) /\
    (forall (page : Page) (message : option (list StockRow))
            (data : list StockRow),
        last_rows events = Some data ->
        rows_of message = [] ->
        let d' := run Number_toString (events ++ [Answer page message]) dom in
        stock_cards_container d'
          = Html "<div class='empty-state'>No stock found.</div>" /\
        total_items d' = List.length data /\
        (0 < total_items d')%nat).
Proof.
  intros nts events dom.
  assert (Htiles : forall (events : list Event) (dom : Dom),
             let d := run nts events dom in
             match last_rows events with
             | Some data =>
                 total_items d = List.length data /\
                 critical_items d = critical (forEach data) /\
                 healthy_items d = healthy (forEach data) /\
                 avg_days_tile d = avg_days nts (forEach data)
             | None =>
                 total_items d = dom.(total_items) /\
                 critical_items d = dom.(critical_items) /\
                 healthy_items d = dom.(healthy_items) /\
                 avg_days_tile d = dom.(avg_days_tile)
             end).
  { clear events dom. unfold run.
    induction events as [|e events IH]; intros dom; cbn zeta.
    - cbn. repeat split.
    - cbn [fold_left last_rows].
      specialize (IH (step nts dom e)). cbn zeta in IH.
      destruct (last_rows events) as [data|]; [exact IH|].
      destruct e as [page|page message].
      + exact IH.
      + rewrite step_answer in IH |- *.
        destruct (rows_of message) as [|i rest]; exact IH. }
  assert (Hlast : forall e : Event,
             stock_cards_container (run nts (events ++ [e]) dom)
             = match e with
               | Refresh _ =>
                   Html
                     "<div class='empty-state'>Loading inventory data...</div>"
               | Answer _ message =>
                   match rows_of message with
                   | [] =>
                       Html "<div class='empty-state'>No stock found.</div>"
                   | data => Cards (map (card nts) data)
                   end
               end).
  { intros e. unfold run. rewrite fold_left_app. cbn [fold_left].
    destruct e as [page|page message]; [reflexivity|].
    rewrite step_answer. destruct (rows_of message); reflexivity. }
  split; [exact (Htiles events dom)|]. split; [exact Hlast|].
  intros page message data Hdata Hempty d'. subst d'.
  pose proof (Hlast (Answer page message)) as Hc.
  cbv beta iota in Hc. rewrite Hempty in Hc.
  pose proof (Htiles (events ++ [Answer page message])%list dom) as Ht.
  cbn zeta in Ht. rewrite (last_rows_app_empty _ _ _ Hempty), Hdata in Ht.
  destruct Ht as (Ht & _).
  split; [exact Hc|]. split; [exact Ht|].
  rewrite Ht.
  assert (Hne : data <> []).
  { clear - Hdata. induction events as [|e events IH]; [discriminate|].
    cbn [last_rows] in Hdata.
    destruct (last_rows events) as [data0|]; [now apply IH|].
    destruct e as [page|page message]; [discriminate|].
    destruct (rows_of message); [discriminate|].
    injection Hdata as <-. discriminate. }
  destruct data; [contradiction|cbn; lia].
Qed.

Lemma tiles_follow_last_rows_witness :
  let d := run unused_toString
             [Refresh page_defaults;
              Answer page_defaults (Some [row_counted; row_at_threshold]);
              Refresh page_defaults;
              Answer page_defaults None] initial_dom in
  stock_cards_container d
    = Html "<div class='empty-state'>No stock found.</div>" /\
  total_items d = 2%nat /\
  (0 < total_items d)%nat.
Proof.
  destruct (tiles_follow_last_rows unused_toString
              [Refresh page_defaults;
               Answer page_defaults (Some [row_counted; row_at_threshold]);
               Refresh page_defaults] initial_dom) as (_ & _ & H).
  apply (H page_defaults None [row_counted; row_at_threshold]);
    reflexivity.
Defined.

(** X5: whenever the page shows cards, the tiles agree with them: there is
    at least one card, Total Items is their number, Reorder Required and
    Healthy Items are the numbers of cards badged Critical and Healthy, and
    the two add up to the total.  This holds at load and is kept by every
    refresh and every answer. *)
Theorem tiles_agree_with_cards :
  consistent initial_dom /\
  (forall (Number_toString : float -> string) (events : list Event)
          (dom : Dom),
      consistent dom -> consistent (run Number_toString events dom)).
Proof.
  split; [exact I|].
  intros nts events. unfold run.
  induction events as [|e events IH]; intros dom Hdom; [exact Hdom|].
  cbn [fold_left]. apply IH.
  destruct e as [page|page message]; [exact I|].
  rewrite step_answer.
  destruct (rows_of message) as [|i rest] eqn:E; [exact I|].
  unfold consistent. cbn [render_data stock_cards_container total_items
                          critical_items healthy_items].
  destruct (forEach_totals nts (i :: rest)) as (Hc & Hh & _ & _ & Hs & _).
  split; [discriminate|]. split; [now rewrite length_map|].
  split; [exact Hc|]. split; [exact Hh|exact Hs].
Qed.

Lemma tiles_agree_with_cards_witness :
  consistent
    (run unused_toString
       [Refresh page_defaults;
        Answer page_defaults (Some [row_counted; row_at_threshold])]
       initial_dom).
Proof.
  apply (proj2 tiles_agree_with_cards). exact (proj1 tiles_agree_with_cards).
Defined.


(** X7: the three count tiles and the number of rows averaged do not depend
    on the order of the rows, so ascending and descending answers show the
    same counts; the average does: its sum is accumulated in row order, and
    the same three rows give 3333333333333333.5 in one order and
    3333333333333334.0 in the other. *)
Theorem counts_ignore_row_order :
  (forall data data' : list StockRow,
      Permutation data data' ->
      List.length data = List.length data' /\
      critical (forEach data) = critical (forEach data') /\
      healthy (forEach data) = healthy (forEach data') /\
      valid_day_items (forEach data) = valid_day_items (forEach data')) /\
  (exists data data' : list StockRow,
      Permutation data data' /\
      forall Number_toString : float -> string,
        avg_days Number_toString (forEach data)
        <> avg_days Number_toString (forEach data')).
Proof.
  split.
  - intros data data' Hperm.
    destruct (forEach_totals unused_toString data)
      as (Hc & Hh & _ & _ & _ & Hv & _).
    destruct (forEach_totals unused_toString data')
      as (Hc' & Hh' & _ & _ & _ & Hv' & _).
    assert (Hb : Permutation
                   (map badge_text (map (card unused_toString) data))
                   (map badge_text (map (card unused_toString) data')))
      by now do 2 apply Permutation_map.
    split; [now apply Permutation_length|].
    rewrite Hc, Hh, Hv, Hc', Hh', Hv'. unfold badged.
    split; [now apply Permutation_count_occ|].
    split; [now apply Permutation_count_occ|].
    now apply Permutation_length, includedDays_Permutation.
  - exists rows_descending, rows_ascending. split.
    + apply (Permutation_cons_append [row_of_qty 1; row_of_qty 1]).
    + intros nts H. vm_compute in H. discriminate H.
Qed.

Lemma counts_ignore_row_order_witness :
  critical (forEach rows_descending) = critical (forEach rows_ascending) /\
  healthy (forEach rows_descending) = healthy (forEach rows_ascending).
Proof.
  destruct (proj1 counts_ignore_row_order rows_descending rows_ascending)
    as (_ & Hc & Hh & _).
  - apply (Permutation_cons_append [row_of_qty 1; row_of_qty 1]).
  - split; [exact Hc|exact Hh].
Defined.

(** X8: the average never counts more rows than the answer has; it counts
    all of them exactly when every row has a days-of-supply above zero, and
    avg_days is the number 0 exactly when no row has one. *)
Theorem average_counts_at_most_all_rows :
  forall (Number_toString : float -> string) (data : list StockRow),
    (valid_day_items (forEach data) <= List.length data)%nat /\
    (valid_day_items (forEach data) = List.length data <->
     (forall i : StockRow, In i data -> daysRemaining i <> None)) /\
    (avg_days Number_toString (forEach data) = JNum 0 <->
     (forall i : StockRow, In i data -> daysRemaining i = None)).
Proof.
  intros nts data.
  destruct (forEach_totals nts data) as (_ & _ & _ & _ & _ & Hv & _).
  rewrite Hv. split; [apply includedDays_length|].
  split; [apply includedDays_all|].
  rewrite <- includedDays_nil. unfold avg_days. rewrite Hv.
  destruct (includedDays data) as [|q qs]; cbn [List.length].
  - split; reflexivity.
  - split; discriminate.
Qed.

(** X9: a quantity that is not a number.  A row whose actual_qty or
    reorder_level is [NaN] is Healthy, on its card and in the counters; a
    row whose days-of-supply is [NaN] is left out of the average and its
    card shows the number 0. *)
Theorem nan_rows :
  forall (Number_toString : float -> string) (i : StockRow) (t : Totals),
    (is_nan i.(actual_qty) || is_nan i.(reorder_level) = true ->
     badge_text (card Number_toString i) = "Healthy" /\
     card_class (card Number_toString i) = "safe" /\
     healthy (forEach_body t i) = S t.(healthy) /\
     critical (forEach_body t i) = t.(critical)) /\
    (forall d : float,
        i.(custom_no_of_days) = Some d -> is_nan d = true ->
        card_days (card Number_toString i) = JNum 0 /\
        valid_day_items (forEach_body t i) = t.(valid_day_items) /\
        total_days (forEach_body t i) = t.(total_days)).
Proof.
  intros nts i t. split.
  - intros H.
    assert (Hc : isCritical i = false).
    { unfold isCritical. rewrite leb_spec.
      apply orb_true_iff in H. destruct H as [H|H];
        apply Prim2SF_nan_is_nan in H; rewrite H.
      - apply SFleb_nan_l.
      - apply SFleb_nan_r. }
    destruct (card_badge nts i) as (Eb & Ek & _).
    destruct (forEach_body_counts t i) as [Ec Eh].
    rewrite Eb, Ek, Ec, Eh, Hc. repeat split.
  - intros d Hd Hnan.
    assert (Hq : daysRemaining i = None).
    { unfold daysRemaining. rewrite Hd, ltb_spec.
      apply Prim2SF_nan_is_nan in Hnan. now rewrite Hnan, SFltb_nan_r. }
    pose proof (forEach_body_days t i) as Ed. rewrite Hq in Ed.
    rewrite card_days_remaining, Hq.
    split; [reflexivity|]. split; apply Ed.
Qed.

Lemma nan_rows_witness :
  badge_text
    (card unused_toString
       {| item_code := "ITM-0004"; item_name := "Paneer";
          warehouse := None; actual_qty := nan; reorder_level := 5;
          custom_no_of_days := Some nan |}) = "Healthy" /\
  card_days
    (card unused_toString
       {| item_code := "ITM-0004"; item_name := "Paneer";
          warehouse := None; actual_qty := nan; reorder_level := 5;
          custom_no_of_days := Some nan |}) = JNum 0.
Proof.
  destruct (nan_rows unused_toString
              {| item_code := "ITM-0004"; item_name := "Paneer";
                 warehouse := None; actual_qty := nan; reorder_level := 5;
                 custom_no_of_days := Some nan |} totals0) as [H1 H2].
  split.
  - apply H1. reflexivity.
  - apply (H2 nan); reflexivity.
Defined.

(** X10: the days remaining on the card of an included row, when the
    quotient is finite and below 10^21 in magnitude, is a text with exactly
    one digit after the point. *)
Theorem days_remaining_one_fraction_digit :
  forall (Number_toString : float -> string) (i : StockRow) (d : float),
    i.(custom_no_of_days) = Some d ->
    (0 <? d) = true ->
    is_finite (i.(actual_qty) / d) = true ->
    (1e21 <=? abs (i.(actual_qty) / d)) = false ->
    exists (whole : string) (digit : ascii),
      card_days (card Number_toString i)
        = JStr (whole ++ "." ++ String digit "") /\
      is_digit digit = true /\
      whole <> "".
Proof.
  intros nts i d Hd Hpos Hfin Hlt.
  rewrite card_days_remaining. unfold daysRemaining. rewrite Hd, Hpos.
  destruct (toFixed1_nearest_tenth nts _ Hfin Hlt) as (n & En & _).
  rewrite En. unfold one_decimal.
  destruct (decimal_digit (n mod 10)) as (c & Ec & Hc).
  { apply N.mod_lt. discriminate. }
  exists ((if actual_qty i / d <? 0 then "-" else "") ++ decimal (n / 10)), c.
  rewrite Ec, append_assoc. split; [reflexivity|]. split; [exact Hc|].
  unfold decimal.
  destruct (actual_qty i / d <? 0); cbn [append]; [discriminate|].
  destruct (N.to_uint (n / 10)); cbn; discriminate.
Qed.

Lemma days_remaining_one_fraction_digit_witness :
  exists (whole : string) (digit : ascii),
    card_days (card unused_toString row_counted)
      = JStr (whole ++ "." ++ String digit "") /\
    is_digit digit = true /\
    whole <> "".
Proof.
  apply (days_remaining_one_fraction_digit unused_toString row_counted 10);
    reflexivity.
Defined.

End StockDashboardExtra.
